(** * Model lister of ComfyUI-OllamaGemini ([list_models.py])

    A shallow embedding of [get_api_keys], [get_gemini_models],
    [get_openai_models], [get_gemini_image_models] and the block that
    runs when the file is executed directly ([main]).

    Python values are modelled as follows.
    - [str] is [string]; comparison of [str] is comparison of code points,
      which on UTF-8 encoded text is the byte-wise order [String.le].
    - [os.environ] is a finite map from names to values; [os.getenv] is
      lookup in it and gives [None] for a name that is not set.
    - The process is a [world]: the environment, what each provider's
      listing endpoint answers, and the trace of what the process did so
      far (lines printed, listing calls made).
    - A function that prints, calls a provider or raises is a computation
      in the monad [Py]: it takes a world and gives an outcome (a returned
      value or a propagated exception) and the world afterwards.
    - [print] and [os.getenv] are taken not to raise; [str(e)] runs the
      [__str__] of the exception and raises what that raises. *)

From Stdlib Require Import Ascii String.
From stdpp Require Import base option list strings gmap sorting pretty.

Set Warnings "-clear-no-such-hyp".

(** ** Strings: [str.split] and negative indexing *)

Module PyStr.

(** [s.split(sep)] for a one-character separator: the pieces between
    the occurrences of [sep], in order. The result is never empty
    ([split_not_nil]), so the branch for [[]] below is never taken. *)
Fixpoint split (sep : ascii) (s : string) : list string :=
  match s with
  | EmptyString => [EmptyString]
  | String a s' =>
      if Ascii.eqb a sep then EmptyString :: split sep s'
      else match split sep s' with
           | [] => [String a EmptyString]
           | piece :: pieces => String a piece :: pieces
           end
  end.

(** [sep in s] *)
Fixpoint contains (sep : ascii) (s : string) : bool :=
  match s with
  | EmptyString => false
  | String a s' => Ascii.eqb a sep || contains sep s'
  end.

(** [l[-1]]: the last element; [None] stands for [IndexError]. *)
Definition index_neg1 {A} (l : list A) : option A := last l.

End PyStr.

Definition slash : ascii := "/"%char.

(** ** Exceptions and outcomes *)

(** An exception object: its class name, whether the class derives from
    [Exception] (as opposed to [BaseException] only, like
    [KeyboardInterrupt], [SystemExit], [GeneratorExit] or
    [asyncio.CancelledError]), and what [str(e)] does: it gives a string,
    or the [__str__] of the class raises an exception of its own. *)
Inductive exn : Type :=
| Exn (class : string) (derives_from_Exception : bool) (str : str_outcome)
with str_outcome : Type :=
| Str (message : string)
| StrRaises (e : exn).

Definition exn_class (e : exn) : string :=
  match e with Exn class _ _ => class end.

Definition isinstance_Exception (e : exn) : bool :=
  match e with Exn _ derives_from_Exception _ => derives_from_Exception end.

Definition exn_str (e : exn) : str_outcome :=
  match e with Exn _ _ str => str end.

Definition IndexError : exn :=
  Exn "IndexError" true (Str "list index out of range").

Inductive outcome (A : Type) : Type :=
| Returned (a : A)
| Propagated (e : exn).
Arguments Returned {A} a.
Arguments Propagated {A} e.

(** ** The world *)

Inductive provider := Gemini | OpenAI.

(** What a listing call does: it yields all its raw identifiers, or it
    raises, possibly after some identifiers were already received. *)
Inductive remote_outcome :=
| Yields (raw : list string)
| Raises (received : list string) (e : exn).

Inductive event :=
| Printed (line : string)
| ListingCall (p : provider) (api_key : string).

Record world := World {
  environ : gmap string string;
  remote : provider → string → remote_outcome;
  trace : list event
}.

Definition log (ev : event) (w : world) : world :=
  World (environ w) (remote w) (trace w ++ [ev]).

(** ** The monad of effectful Python code *)

Definition Py (A : Type) : Type := world → outcome A * world.

Definition py_ret {A} (a : A) : Py A := λ w, (Returned a, w).

Definition py_bind {A B} (f : A → Py B) (m : Py A) : Py B :=
  λ w, match m w with
       | (Returned a, w') => f a w'
       | (Propagated e, w') => (Propagated e, w')
       end.

#[global] Instance Py_ret : MRet Py := @py_ret.
#[global] Instance Py_bind : MBind Py := @py_bind.

Definition raise {A} (e : exn) : Py A := λ w, (Propagated e, w).

(** [try: body  except Exception as e: handler e] *)
Definition try_except_Exception {A} (body : Py A) (handler : exn → Py A) : Py A :=
  λ w, match body w with
       | (Returned a, w') => (Returned a, w')
       | (Propagated e, w') =>
           if isinstance_Exception e then handler e w'
           else (Propagated e, w')
       end.

Definition print (line : string) : Py unit :=
  λ w, (Returned (), log (Printed line) w).

(** [str(e)] *)
Definition py_str (e : exn) : Py string :=
  match exn_str e with
  | Str message => mret message
  | StrRaises e' => raise e'
  end.

Definition os_getenv (name : string) : Py (option string) :=
  λ w, (Returned (environ w !! name), w).

(** Evaluating an optional value in a condition: [None] and [''] are
    false, every other string is true. *)
Definition truthy (v : option string) : bool :=
  match v with
  | None | Some EmptyString => false
  | Some (String _ _) => true
  end.

(** The provider's listing call with the given key, together with the
    iteration over its result: the call is recorded; when the endpoint
    raises, the identifiers received so far are lost with the
    comprehension that was collecting them. *)
Definition list_models (p : provider) (api_key : string) : Py (list string) :=
  λ w, let w' := log (ListingCall p api_key) w in
       match remote w p api_key with
       | Yields raw => (Returned raw, w')
       | Raises _ e => (Propagated e, w')
       end.

(** A list comprehension [[f x for x in l]] whose [f] may raise. *)
Fixpoint comprehension {A B} (f : A → Py B) (l : list A) : Py (list B) :=
  match l with
  | [] => mret []
  | x :: l' => y ← f x; ys ← comprehension f l'; mret (y :: ys)
  end.

(** ** [list_models.py] *)

Definition get_api_keys : Py (option string * option string) :=
  try_except_Exception
    (gemini_api_key ← os_getenv "GEMINI_API_KEY";
     openai_api_key ← os_getenv "OPENAI_API_KEY";
     (if truthy gemini_api_key then mret ()
      else print "Warning: GEMINI_API_KEY environment variable not set.");;
     (if truthy openai_api_key then mret ()
      else print "Warning: OPENAI_API_KEY environment variable not set.");;
     mret (gemini_api_key, openai_api_key))
    (λ e,
       message ← py_str e;
       print ("Error getting API keys from environment variables: " +:+ message);;
       mret (None, None)).

Definition default_gemini_models : list string :=
  [ "gemini-2.5-pro-exp-03-25";
    "gemini-2.0-flash";
    "gemini-2.0-flash-lite";
    "gemini-2.0-flash-exp-image-generation";
    "gemini-1.5-pro";
    "gemini-1.5-flash";
    "gemini-1.5-flash-8b";
    "imagen-3.0-generate-002" ].

Definition default_openai_models : list string :=
  [ "gpt-4o-mini";
    "gpt-4o-mini-2024-07-18";
    "gpt-3.5-turbo";
    "gpt-3.5-turbo-0125";
    "gpt-3.5-turbo-16k";
    "o1-preview";
    "o1-preview-2024-09-12";
    "o1-mini";
    "o1-mini-2024-09-12";
    "deepseek-ai/deepseek-r1" ].

(** [name.split('/')[-1]] *)
Definition last_segment (name : string) : Py string :=
  match PyStr.index_neg1 (PyStr.split slash name) with
  | Some piece => mret piece
  | None => raise IndexError
  end.

(** [for model in defaults: if model not in names: names.append(model)] *)
Definition include_defaults (defaults names : list string) : list string :=
  fold_left (λ acc model, if bool_decide (model ∈ acc) then acc else acc ++ [model])
            defaults names.

(** [sorted(names)] on strings *)
Definition sorted (names : list string) : list string :=
  merge_sort String.le names.

Arguments include_defaults : simpl never.
Arguments sorted : simpl never.

Definition get_gemini_models : Py (list string) :=
  '(gemini_api_key, _) ← get_api_keys;
  match gemini_api_key with
  | None | Some EmptyString =>
      print "Gemini API key is missing. Using default model list.";;
      mret default_gemini_models
  | Some api_key =>
      try_except_Exception
        (model_names ← list_models Gemini api_key;
         model_names ← comprehension last_segment model_names;
         print ("Gemini models fetched: " +:+ pretty (length model_names)
                +:+ " models available");;
         mret (sorted (include_defaults default_gemini_models model_names)))
        (λ e,
           message ← py_str e;
           print ("Error fetching Gemini models: " +:+ message);;
           print "Using default model list.";;
           mret default_gemini_models)
  end.

Definition get_openai_models : Py (list string) :=
  '(_, openai_api_key) ← get_api_keys;
  match openai_api_key with
  | None | Some EmptyString =>
      print "OpenAI API key is missing. Using default model list.";;
      mret default_openai_models
  | Some api_key =>
      try_except_Exception
        (model_ids ← list_models OpenAI api_key;
         print ("OpenAI models fetched: " +:+ pretty (length model_ids)
                +:+ " models available");;
         mret (sorted (include_defaults default_openai_models model_ids)))
        (λ e,
           message ← py_str e;
           print ("Error fetching OpenAI models: " +:+ message);;
           print "Using default OpenAI model list.";;
           mret default_openai_models)
  end.

Definition get_gemini_image_models : Py (list string) :=
  mret ["gemini-2.0-flash-exp-image-generation"; "imagen-3.0-generate-002"].

(** ** Both providers at once

    The two listers differ in the environment variable they read, the
    default list and the normalisation of the raw identifiers; the
    statements below are indexed by the provider. *)

Definition get_models (p : provider) : Py (list string) :=
  match p with
  | Gemini => get_gemini_models
  | OpenAI => get_openai_models
  end.

Definition env_var (p : provider) : string :=
  match p with
  | Gemini => "GEMINI_API_KEY"
  | OpenAI => "OPENAI_API_KEY"
  end.

Definition default_models (p : provider) : list string :=
  match p with
  | Gemini => default_gemini_models
  | OpenAI => default_openai_models
  end.

Definition missing_key_warning (p : provider) : string :=
  match p with
  | Gemini => "Warning: GEMINI_API_KEY environment variable not set."
  | OpenAI => "Warning: OPENAI_API_KEY environment variable not set."
  end.

Definition using_default_notice (p : provider) : string :=
  match p with
  | Gemini => "Gemini API key is missing. Using default model list."
  | OpenAI => "OpenAI API key is missing. Using default model list."
  end.

(** The value of [name.split('/')[-1]] as a function of [name]
    (see [last_segment_run]). *)
Definition normalize (name : string) : string :=
  default name (PyStr.index_neg1 (PyStr.split slash name)).

(** The identifiers a lister works with after a fetch of [raw]. *)
Definition normalized (p : provider) (raw : list string) : list string :=
  match p with
  | Gemini => normalize <$> raw
  | OpenAI => raw
  end.

(** What the listing call of [p] does in [w] when the lister gets to it,
    that is, when the credential is set and not empty. *)
Definition fetch (p : provider) (w : world) : option remote_outcome :=
  match environ w !! env_var p with
  | Some (String a k) => Some (remote w p (String a k))
  | _ => None
  end.

(** The world after some more events. *)
Definition emit (evs : list event) (w : world) : world :=
  World (environ w) (remote w) (trace w ++ evs).

(** The warnings of [get_api_keys]. *)
Definition key_warnings (w : world) : list string :=
  (if truthy (environ w !! "GEMINI_API_KEY") then []
   else [missing_key_warning Gemini]) ++
  (if truthy (environ w !! "OPENAI_API_KEY") then []
   else [missing_key_warning OpenAI]).

Definition KeyboardInterrupt : exn := Exn "KeyboardInterrupt" false (Str "").
Definition ConnectionError : exn :=
  Exn "ConnectionError" true (Str "connection refused").

(** An error of the provider whose [__str__] raises a [RuntimeError]. *)
Definition RuntimeError : exn := Exn "RuntimeError" true (Str "no message").
Definition UnprintableError : exn :=
  Exn "UnprintableError" true (StrRaises RuntimeError).

Definition fetched_notice (p : provider) (n : nat) : string :=
  match p with
  | Gemini => "Gemini models fetched: " +:+ pretty n +:+ " models available"
  | OpenAI => "OpenAI models fetched: " +:+ pretty n +:+ " models available"
  end.

Definition error_notices (p : provider) (message : string) : list string :=
  match p with
  | Gemini => ["Error fetching Gemini models: " +:+ message;
               "Using default model list."]
  | OpenAI => ["Error fetching OpenAI models: " +:+ message;
               "Using default OpenAI model list."]
  end.

(** The list a lister builds from the raw identifiers it fetched. *)
Definition merged (p : provider) (raw : list string) : list string :=
  sorted (include_defaults (default_models p) (normalized p raw)).

Ltac py_unfold :=
  unfold mbind, Py_bind, py_bind, mret, Py_ret, py_ret,
    try_except_Exception, print, py_str, raise, list_models, os_getenv, log,
    emit.

Ltac tidy_trace :=
  cbn [environ remote trace];
  unfold merged, normalized, default_models, fetched_notice, error_notices,
    using_default_notice;
  rewrite ?fmap_app, ?app_nil_r, <- ?app_assoc;
  cbn [fmap list_fmap app].

(** ** Worlds used as examples *)

Definition both_keys : gmap string string :=
  {[ "GEMINI_API_KEY" := "g-key"; "OPENAI_API_KEY" := "o-key" ]}.

(** Both keys set; the listing calls are interrupted from the keyboard. *)
Definition world_interrupted : world :=
  World both_keys (λ _ _, Raises [] KeyboardInterrupt) [].


(** Both keys set; the connection fails after one identifier was received. *)
Definition world_refused : world :=
  World both_keys (λ _ _, Raises ["models/gemini-2.0-flash"] ConnectionError) [].

(** Both keys set; the providers answer. *)
Definition world_online : world :=
  World both_keys
    (λ p _, match p with
            | Gemini => Yields ["models/gemini-2.0-flash"; "models/gemini-pro";
                                "models/Zeta"]
            | OpenAI => Yields ["gpt-4o"; "gpt-4o-mini"; "whisper-1"]
            end) [].

(** Both keys set; the answers repeat an identifier: for Gemini two raw
    identifiers with the same last segment, for OpenAI the same
    identifier twice. *)
Definition world_repeating : world :=
  World both_keys
    (λ p _, match p with
            | Gemini => Yields ["models/aqa"; "tunedModels/aqa"]
            | OpenAI => Yields ["gpt-4o"; "gpt-4o"]
            end) [].

(** No key set. *)
Definition world_no_keys : world :=
  World ∅ (λ _ _, Yields ["models/gemini-pro"]) [].

(** Both keys set to the empty string. *)
Definition world_empty_keys : world :=
  World {[ "GEMINI_API_KEY" := ""; "OPENAI_API_KEY" := "" ]}
        (λ _ _, Yields ["models/gemini-pro"]) [].

(** Both keys set; the providers answer with no identifier at all. *)
Definition world_silent : world :=
  World both_keys (λ _ _, Yields []) [].

(** Both keys set; the answers hold an identifier that ends with a slash. *)
Definition world_trailing_slash : world :=
  World both_keys (λ _ _, Yields ["models/gemini-pro"; "models/"]) [].

(** Both keys set; each provider answers with the list its lister returned
    in [world_online]. *)
Definition world_echo : world :=
  World both_keys
    (λ p _, match remote world_online p "" with
            | Yields raw => Yields (merged p raw)
            | Raises received e => Raises received e
            end) [].

(** Both keys set; the listing calls raise an error whose [__str__]
    raises. *)
Definition world_unprintable : world :=
  World both_keys (λ _ _, Raises [] UnprintableError) [].

(** Only the Gemini key set; the providers answer as in [world_online]. *)
Definition world_gemini_only : world :=
  World {[ "GEMINI_API_KEY" := "g-key" ]} (remote world_online) [].

(** ** The program run directly

    The block under [if __name__ == "__main__":]. *)

(** The line feed that a backslash and [n] stand for in the source. *)
Definition newline : string := String "010"%char EmptyString.

(** [for x in l: body x] *)
Fixpoint for_each {A} (l : list A) (body : A → Py unit) : Py unit :=
  match l with
  | [] => mret ()
  | x :: l' => body x;; for_each l' body
  end.

Definition main : Py unit :=
  print "--- Attempting to retrieve API keys from environment variables ---";;
  '(gemini_key, openai_key) ← get_api_keys;
  (if truthy gemini_key then print "Gemini API Key found." else mret ());;
  (if truthy openai_key then print "OpenAI API Key found." else mret ());;
  print "------------------------------------------------------------------";;
  print (newline +:+ "=== Gemini Models ===");;
  gemini_models ← get_gemini_models;
  for_each gemini_models (λ model, print ("Name: " +:+ model));;
  print (newline +:+ "Total Gemini Models listed: "
         +:+ pretty (length gemini_models));;
  print (newline +:+ "=== OpenAI Models ===");;
  openai_models ← get_openai_models;
  for_each openai_models (λ model, print ("ID: " +:+ model));;
  print (newline +:+ "Total OpenAI Models listed: "
         +:+ pretty (length openai_models)).

(** ** What a run leaves in the trace *)

(** The listing calls recorded in a trace, in order. *)
Definition listing_calls (evs : list event) : list (provider * string) :=
  omap (λ ev, match ev with
              | ListingCall p k => Some (p, k)
              | Printed _ => None
              end) evs.

(** The lines printed in a trace, in order. *)
Definition printed_lines (evs : list event) : list string :=
  omap (λ ev, match ev with
              | Printed line => Some line
              | ListingCall _ _ => None
              end) evs.

(** How often [x] occurs in [l]. *)
Definition occurrences (x : string) (l : list string) : nat :=
  length (filter (λ y, y = x) l).

(** Whether [s] starts with the character [c]. *)
Definition starts_with (c : ascii) (s : string) : bool :=
  match s with
  | EmptyString => false
  | String a _ => Ascii.eqb a c
  end.

(** The events of one run of the lister of [p] in [w]
    (see [get_models_run]). *)
Definition lister_events (p : provider) (w : world) : list event :=
  (Printed <$> key_warnings w) ++
  match environ w !! env_var p with
  | Some (String a k) =>
      ListingCall p (String a k) ::
      match remote w p (String a k) with
      | Yields raw => [Printed (fetched_notice p (length raw))]
      | Raises _ e =>
          if isinstance_Exception e
          then match exn_str e with
               | Str message => Printed <$> error_notices p message
               | StrRaises _ => []
               end
          else []
      end
  | _ => [Printed (using_default_notice p)]
  end.

Definition key_found_lines (w : world) : list string :=
  (if truthy (environ w !! "GEMINI_API_KEY") then ["Gemini API Key found."]
   else []) ++
  (if truthy (environ w !! "OPENAI_API_KEY") then ["OpenAI API Key found."]
   else []).

Definition banner_line : string :=
  "--- Attempting to retrieve API keys from environment variables ---".

Definition rule_line : string :=
  "------------------------------------------------------------------".

Definition section_header (p : provider) : string :=
  match p with
  | Gemini => newline +:+ "=== Gemini Models ==="
  | OpenAI => newline +:+ "=== OpenAI Models ==="
  end.

Definition item_line (p : provider) (model : string) : string :=
  match p with
  | Gemini => "Name: " +:+ model
  | OpenAI => "ID: " +:+ model
  end.

Definition total_line (p : provider) (n : nat) : string :=
  match p with
  | Gemini => newline +:+ "Total Gemini Models listed: " +:+ pretty n
  | OpenAI => newline +:+ "Total OpenAI Models listed: " +:+ pretty n
  end.

(** What [main] prints before it lists the Gemini models. *)
Definition preamble_events (w : world) : list event :=
  Printed <$> (banner_line :: key_warnings w ++ key_found_lines w ++
               [rule_line; section_header Gemini]).

(** What [main] prints for the list [models] of provider [p]. *)
Definition listing_events (p : provider) (models : list string) : list event :=
  Printed <$> ((item_line p <$> models) ++ [total_line p (length models)]).

(** ** Facts about [str.split] *)

Section split_facts.
Variable sep : ascii.

Lemma split_not_nil s : PyStr.split sep s ≠ [].
Proof.
  destruct s as [|a s]; simpl; [done|].
  destruct (Ascii.eqb a sep); [done|].
  by destruct (PyStr.split sep s).
Qed.

Lemma split_no_sep s : PyStr.contains sep s = false → PyStr.split sep s = [s].
Proof.
  induction s as [|a s IH]; simpl; [done|].
  destruct (Ascii.eqb a sep); simpl; [done|].
  intros Hs. by rewrite IH.
Qed.

Lemma split_app_sep prefix tail :
  PyStr.contains sep tail = false →
  PyStr.split sep (prefix +:+ String sep tail) = PyStr.split sep prefix ++ [tail].
Proof.
  intros Htail. induction prefix as [|a prefix IH]; simpl.
  - by rewrite Ascii.eqb_refl, split_no_sep.
  - destruct (Ascii.eqb a sep); simpl; [by rewrite IH|].
    rewrite IH. pose proof (split_not_nil prefix).
    by destruct (PyStr.split sep prefix).
Qed.

(** A string with a separator in it is cut at its last separator. *)
Lemma cut_at_last_sep s :
  PyStr.contains sep s = true →
  ∃ prefix tail, s = prefix +:+ String sep tail ∧ PyStr.contains sep tail = false.
Proof.
  induction s as [|a s IH]; simpl; [done|].
  destruct (PyStr.contains sep s) eqn:Hs.
  - intros _. destruct IH as (prefix & tail & -> & Htail); [done|].
    by exists (String a prefix), tail.
  - rewrite orb_false_r. intros ->%Ascii.eqb_eq.
    by exists "", s.
Qed.

Lemma index_neg1_split_no_sep s :
  PyStr.contains sep s = false →
  PyStr.index_neg1 (PyStr.split sep s) = Some s.
Proof. intros Hs. by rewrite split_no_sep. Qed.

Lemma index_neg1_split_app_sep prefix tail :
  PyStr.contains sep tail = false →
  PyStr.index_neg1 (PyStr.split sep (prefix +:+ String sep tail)) = Some tail.
Proof.
  intros Htail. rewrite split_app_sep by done.
  unfold PyStr.index_neg1. by rewrite last_snoc.
Qed.

Lemma index_neg1_split_is_Some s :
  is_Some (PyStr.index_neg1 (PyStr.split sep s)).
Proof.
  destruct (PyStr.contains sep s) eqn:Hs.
  - destruct (cut_at_last_sep s Hs) as (prefix & tail & -> & Htail).
    rewrite index_neg1_split_app_sep; eauto.
  - rewrite index_neg1_split_no_sep; eauto.
Qed.
End split_facts.

Lemma normalize_no_slash name :
  PyStr.contains slash name = false → normalize name = name.
Proof. intros H. unfold normalize. by rewrite index_neg1_split_no_sep. Qed.

Lemma normalize_after_slash prefix tail :
  PyStr.contains slash tail = false →
  normalize (prefix +:+ String slash tail) = tail.
Proof. intros H. unfold normalize. by rewrite index_neg1_split_app_sep. Qed.

(** [name.split('/')[-1]] never raises and leaves the world alone. *)
Lemma last_segment_run name w :
  last_segment name w = (Returned (normalize name), w).
Proof.
  unfold last_segment, normalize.
  by destruct (index_neg1_split_is_Some slash name) as [piece ->].
Qed.

Lemma comprehension_last_segment_run raw w :
  comprehension last_segment raw w = (Returned (normalize <$> raw), w).
Proof.
  induction raw as [|name raw IH]; [done|].
  simpl. unfold mbind, Py_bind, py_bind.
  by rewrite last_segment_run, IH.
Qed.

(** ** Facts about the merge of the defaults *)

Lemma filter_agree {A} (P Q : A → Prop)
    `{!∀ x, Decision (P x)} `{!∀ x, Decision (Q x)} (l : list A) :
  (∀ x, x ∈ l → P x ↔ Q x) → filter P l = filter Q l.
Proof.
  induction l as [|y l IH]; intros Hagree; [done|].
  rewrite !filter_cons.
  rewrite IH by (intros x Hx; apply Hagree; by right).
  pose proof (Hagree y (list_elem_of_here y l)) as Hy.
  destruct (decide (P y)), (decide (Q y)); naive_solver.
Qed.

Section include_defaults_facts.
Implicit Types defaults names added : list string.

Lemma include_defaults_nil names : include_defaults [] names = names.
Proof. done. Qed.

Lemma include_defaults_cons d defaults names :
  include_defaults (d :: defaults) names =
  include_defaults defaults
    (if bool_decide (d ∈ names) then names else names ++ [d]).
Proof. done. Qed.

(** The loop only appends: the result is [names] followed by the
    defaults that were missing, each once. *)
Lemma include_defaults_appends defaults names :
  ∃ added,
    include_defaults defaults names = names ++ added ∧
    NoDup added ∧
    ∀ x, x ∈ added ↔ x ∈ defaults ∧ x ∉ names.
Proof.
  revert names. induction defaults as [|d defaults IH]; intros names.
  - exists []. rewrite include_defaults_nil, app_nil_r.
    split; [done|]. split; [constructor|].
    intros x. rewrite elem_of_nil. set_solver.
  - rewrite include_defaults_cons. case_bool_decide as Hd.
    + destruct (IH names) as (added & -> & Hnd & Hin).
      exists added. split; [done|]. split; [done|].
      intros x. rewrite Hin. set_solver.
    + destruct (IH (names ++ [d])) as (added & -> & Hnd & Hin).
      exists (d :: added). rewrite <- app_assoc. split; [done|]. split.
      * constructor; [|done]. rewrite Hin. set_solver.
      * intros x. rewrite elem_of_cons, Hin. split.
        -- intros [->|[? ?]]; set_solver.
        -- intros [[->|?]%elem_of_cons ?]; [by left|].
           destruct (decide (x = d)) as [->|]; [by left|].
           right. set_solver.
Qed.

Lemma elem_of_include_defaults defaults names x :
  x ∈ include_defaults defaults names ↔ x ∈ names ∨ x ∈ defaults.
Proof.
  destruct (include_defaults_appends defaults names) as (added & -> & _ & Hin).
  rewrite elem_of_app, Hin.
  destruct (decide (x ∈ names)); naive_solver.
Qed.

Lemma NoDup_include_defaults defaults names :
  NoDup (include_defaults defaults names) ↔ NoDup names.
Proof.
  destruct (include_defaults_appends defaults names) as (added & -> & Hnd & Hin).
  rewrite NoDup_app. split; [naive_solver|].
  intros Hnames. split; [done|]. split; [|done].
  intros x Hx [_ Hx']%Hin. done.
Qed.

(** With defaults that are pairwise different, what is appended is the
    defaults that are not among [names], in the order of the default list. *)
Lemma include_defaults_filter defaults names :
  NoDup defaults →
  include_defaults defaults names =
  names ++ filter (λ d, d ∉ names) defaults.
Proof.
  revert names. induction defaults as [|d defaults IH]; intros names Hnd.
  - by rewrite include_defaults_nil, app_nil_r.
  - apply NoDup_cons in Hnd as [Hd Hnd].
    rewrite include_defaults_cons, filter_cons. case_bool_decide as Hin.
    + rewrite decide_False by (intros ?; done). by apply IH.
    + rewrite decide_True by done. rewrite IH by done.
      rewrite <- app_assoc. simpl. do 2 f_equal.
      apply filter_agree. intros x Hx.
      rewrite elem_of_app, list_elem_of_singleton.
      split; [naive_solver|]. intros Hx' [?| ->]; done.
Qed.
End include_defaults_facts.

Lemma NoDup_default_models p : NoDup (default_models p).
Proof. destruct p; compute_done. Qed.

(** ** Facts about [sorted] *)

Lemma sorted_Permutation names : sorted names ≡ₚ names.
Proof. apply merge_sort_Permutation. Qed.

Lemma sorted_StronglySorted names : StronglySorted String.le (sorted names).
Proof. apply StronglySorted_merge_sort; apply _. Qed.

(** There is one sorted arrangement of a list of strings, so [sorted]
    stands for any sorting algorithm, Python's included. *)
Lemma sorted_unique names names' :
  names' ≡ₚ names → StronglySorted String.le names' → names' = sorted names.
Proof.
  intros Hperm Hsorted.
  apply (StronglySorted_unique String.le); [done|apply sorted_StronglySorted|].
  by rewrite sorted_Permutation.
Qed.

(** The order on strings: the first differing character decides, by its
    code; a proper prefix comes first. *)
Lemma string_le_nil s : String.le "" s.
Proof. by destruct s. Qed.

Lemma string_le_cons a s b t :
  String.le (String a s) (String b t) ↔
  (Ascii.N_of_ascii a < Ascii.N_of_ascii b)%N ∨ (a = b ∧ String.le s t).
Proof.
  unfold String.le, String.leb. simpl. unfold Ascii.compare.
  destruct (N.compare_spec (Ascii.N_of_ascii a) (Ascii.N_of_ascii b)) as [Heq|Hlt|Hgt].
  - apply (f_equal Ascii.ascii_of_N) in Heq.
    rewrite !Ascii.ascii_N_embedding in Heq. subst b. split; [by right|].
    intros [?%N.lt_irrefl|[_ ?]]; done.
  - split; [by left|done].
  - split; [done|]. intros [Hlt|[-> _]]; [|by apply N.lt_irrefl in Hgt].
    exfalso. eapply N.lt_irrefl. by etrans.
Qed.

Lemma string_le_cons_nil a s : ¬ String.le (String a s) "".
Proof. by intros ?. Qed.

(** ** Running the listers *)

Lemma get_api_keys_run w :
  get_api_keys w =
  (Returned (environ w !! "GEMINI_API_KEY", environ w !! "OPENAI_API_KEY"),
   emit (Printed <$> key_warnings w) w).
Proof.
  destruct w as [env r t]. unfold get_api_keys, key_warnings. py_unfold. simpl.
  destruct (truthy (env !! "GEMINI_API_KEY")), (truthy (env !! "OPENAI_API_KEY"));
    tidy_trace; reflexivity.
Qed.

Lemma fetch_None p w :
  fetch p w = None ↔ truthy (environ w !! env_var p) = false.
Proof. unfold fetch. by destruct (environ w !! env_var p) as [[|a k]|]. Qed.

Lemma fetch_Some p w r :
  fetch p w = Some r ↔
  ∃ k, environ w !! env_var p = Some k ∧ truthy (Some k) = true ∧ remote w p k = r.
Proof.
  unfold fetch. destruct (environ w !! env_var p) as [[|a k]|]; split;
    try done; try (intros (k' & ? & ? & ?); by simplify_eq).
  intros [= <-]. by exists (String a k).
Qed.

Lemma get_models_no_credential p w :
  fetch p w = None →
  get_models p w =
  (Returned (default_models p),
   emit (Printed <$> (key_warnings w ++ [using_default_notice p])) w).
Proof.
  intros Hkey%fetch_None.
  destruct p; unfold get_models, get_gemini_models, get_openai_models;
    unfold mbind at 1, Py_bind at 1, py_bind at 1;
    rewrite get_api_keys_run; simpl in Hkey;
    destruct (environ w !! _) as [[|a k]|]; try done;
    py_unfold; tidy_trace; reflexivity.
Qed.

Lemma get_models_fetched p w k raw :
  environ w !! env_var p = Some k → truthy (Some k) = true →
  remote w p k = Yields raw →
  get_models p w =
  (Returned (merged p raw),
   emit ((Printed <$> key_warnings w) ++
         [ListingCall p k; Printed (fetched_notice p (length raw))]) w).
Proof.
  intros Hkey Hk Hr. destruct k as [|a k]; [done|].
  destruct p; unfold get_models, get_gemini_models, get_openai_models;
    unfold mbind at 1, Py_bind at 1, py_bind at 1;
    rewrite get_api_keys_run; simpl in Hkey; rewrite Hkey.
  - unfold try_except_Exception, mbind at 1, Py_bind at 1, py_bind at 1.
    unfold list_models. simpl remote. rewrite Hr.
    unfold mbind at 1, Py_bind at 1, py_bind at 1.
    rewrite comprehension_last_segment_run.
    py_unfold. rewrite length_fmap. tidy_trace. reflexivity.
  - py_unfold. simpl remote. rewrite Hr. tidy_trace. reflexivity.
Qed.

Lemma get_models_raised p w k received e :
  environ w !! env_var p = Some k → truthy (Some k) = true →
  remote w p k = Raises received e →
  get_models p w =
  if isinstance_Exception e
  then match exn_str e with
       | Str message =>
           (Returned (default_models p),
            emit ((Printed <$> key_warnings w) ++
                  ListingCall p k :: (Printed <$> error_notices p message)) w)
       | StrRaises e' =>
           (Propagated e',
            emit ((Printed <$> key_warnings w) ++ [ListingCall p k]) w)
       end
  else (Propagated e,
        emit ((Printed <$> key_warnings w) ++ [ListingCall p k]) w).
Proof.
  intros Hkey Hk Hr. destruct k as [|a k]; [done|].
  destruct p; unfold get_models, get_gemini_models, get_openai_models;
    unfold mbind at 1, Py_bind at 1, py_bind at 1;
    rewrite get_api_keys_run; simpl in Hkey; rewrite Hkey;
    py_unfold; simpl remote; rewrite Hr;
    destruct (isinstance_Exception e), (exn_str e) as [message|e'];
    py_unfold; tidy_trace; reflexivity.
Qed.

(** The outcome of a lister is decided by what [fetch] gives. *)
Lemma get_models_result p w :
  (get_models p w).1 =
  match fetch p w with
  | None => Returned (default_models p)
  | Some (Yields raw) => Returned (merged p raw)
  | Some (Raises _ e) =>
      if isinstance_Exception e
      then match exn_str e with
           | Str _ => Returned (default_models p)
           | StrRaises e' => Propagated e'
           end
      else Propagated e
  end.
Proof.
  destruct (fetch p w) as [[raw|received e]|] eqn:Hfetch.
  - apply fetch_Some in Hfetch as (k & Hkey & Hk & Hr).
    by rewrite (get_models_fetched p w k raw).
  - apply fetch_Some in Hfetch as (k & Hkey & Hk & Hr).
    rewrite (get_models_raised p w k received e) by done.
    by destruct (isinstance_Exception e), (exn_str e).
  - by rewrite get_models_no_credential.
Qed.

(** A lister changes nothing of the world but its trace. *)
Lemma get_models_world p w : ∃ evs, (get_models p w).2 = emit evs w.
Proof.
  destruct (fetch p w) as [[raw|received e]|] eqn:Hfetch.
  - apply fetch_Some in Hfetch as (k & Hkey & Hk & Hr).
    rewrite (get_models_fetched p w k raw) by done. by eexists.
  - apply fetch_Some in Hfetch as (k & Hkey & Hk & Hr).
    rewrite (get_models_raised p w k received e) by done.
    destruct (isinstance_Exception e), (exn_str e); by eexists.
  - rewrite get_models_no_credential by done. by eexists.
Qed.

Lemma fetch_emit p evs w : fetch p (emit evs w) = fetch p w.
Proof. done. Qed.

Lemma key_warnings_missing p w :
  truthy (environ w !! env_var p) = false →
  missing_key_warning p ∈ key_warnings w.
Proof.
  intros Hkey. unfold key_warnings.
  destruct p; simpl in Hkey; rewrite Hkey; set_solver.
Qed.

(** ** The properties of the listers *)







(** C3: when the provider's environment variable is not set, the lister
    returns the provider's default list as it is, and all it does to the
    world is print lines, among them the notice that the default list is
    used: no listing call is made. *)
Theorem C3_no_credential_gives_default p w :
  environ w !! env_var p = None →
  ∃ lines,
    get_models p w = (Returned (default_models p), emit (Printed <$> lines) w) ∧
    using_default_notice p ∈ lines.
Proof.
  intros Hkey. exists (key_warnings w ++ [using_default_notice p]). split.
  - apply get_models_no_credential, fetch_None. by rewrite Hkey.
  - set_solver.
Qed.

Lemma C3_no_credential_gives_default_witness :
  ∃ lines,
    get_models Gemini world_no_keys =
      (Returned (default_models Gemini), emit (Printed <$> lines) world_no_keys) ∧
    using_default_notice Gemini ∈ lines.
Proof.
  apply (C3_no_credential_gives_default Gemini world_no_keys).
  vm_compute. reflexivity.
Defined.

(** C4, as stated, fails: the fetched identifiers are not deduplicated.
    Two raw Gemini identifiers with the same last segment, or an OpenAI
    identifier sent twice, are both kept in the returned list. *)
Lemma C4_repeats_are_kept :
  fetch Gemini world_repeating = Some (Yields ["models/aqa"; "tunedModels/aqa"]) ∧
  (∃ l, (get_gemini_models world_repeating).1 = Returned l ∧
        l !! 0%nat = Some "aqa" ∧ l !! 1%nat = Some "aqa" ∧ ¬ NoDup l) ∧
  fetch OpenAI world_repeating = Some (Yields ["gpt-4o"; "gpt-4o"]) ∧
  (∃ l, (get_openai_models world_repeating).1 = Returned l ∧
        l !! 4%nat = Some "gpt-4o" ∧ l !! 5%nat = Some "gpt-4o" ∧ ¬ NoDup l).
Proof.
  split; [by vm_compute|]. split.
  - eexists. split; [vm_compute; reflexivity|].
    split; [reflexivity|]. split; [reflexivity|].
    intros Hnd.
    by pose proof (NoDup_lookup _ 0%nat 1%nat "aqa" Hnd eq_refl eq_refl).
  - split; [by vm_compute|].
    eexists. split; [vm_compute; reflexivity|].
    split; [reflexivity|]. split; [reflexivity|].
    intros Hnd.
    by pose proof (NoDup_lookup _ 4%nat 5%nat "gpt-4o" Hnd eq_refl eq_refl).
Qed.

(** C4, amended: after a successful fetch the returned list is free of
    duplicates exactly when the normalized fetched identifiers are:
    including the defaults never adds a duplicate, and repeats among the
    fetched identifiers stay. *)
Theorem C4_duplicates_only_from_fetch p w raw :
  fetch p w = Some (Yields raw) →
  ∃ l, (get_models p w).1 = Returned l ∧
       (NoDup l ↔ NoDup (normalized p raw)).
Proof.
  intros Hfetch. exists (merged p raw).
  split; [by rewrite get_models_result, Hfetch|].
  unfold merged. by rewrite sorted_Permutation, NoDup_include_defaults.
Qed.

Lemma C4_duplicates_only_from_fetch_witness :
  ∃ l, (get_models Gemini world_online).1 = Returned l ∧
       (NoDup l ↔
        NoDup (normalized Gemini
                 ["models/gemini-2.0-flash"; "models/gemini-pro"; "models/Zeta"])).
Proof.
  apply (C4_duplicates_only_from_fetch Gemini world_online).
  vm_compute. reflexivity.
Defined.

(** C5: after a successful fetch the returned list holds exactly the
    normalized fetched identifiers and the default identifiers; it is an
    arrangement of the normalized fetched identifiers followed by the
    default identifiers that are not among them. *)
Theorem C5_membership_after_fetch p w raw :
  fetch p w = Some (Yields raw) →
  ∃ l, (get_models p w).1 = Returned l ∧
       (∀ x, x ∈ l ↔ x ∈ normalized p raw ∨ x ∈ default_models p) ∧
       l ≡ₚ normalized p raw ++
            filter (λ d, d ∉ normalized p raw) (default_models p).
Proof.
  intros Hfetch. exists (merged p raw).
  split; [by rewrite get_models_result, Hfetch|].
  unfold merged. split.
  - intros x. by rewrite sorted_Permutation, elem_of_include_defaults.
  - rewrite sorted_Permutation.
    by rewrite include_defaults_filter by apply NoDup_default_models.
Qed.

Lemma C5_membership_after_fetch_witness :
  ∃ l, (get_models OpenAI world_online).1 = Returned l ∧
       (∀ x, x ∈ l ↔
             x ∈ normalized OpenAI ["gpt-4o"; "gpt-4o-mini"; "whisper-1"] ∨
             x ∈ default_models OpenAI) ∧
       l ≡ₚ normalized OpenAI ["gpt-4o"; "gpt-4o-mini"; "whisper-1"] ++
            filter (λ d, d ∉ normalized OpenAI ["gpt-4o"; "gpt-4o-mini"; "whisper-1"])
                   (default_models OpenAI).
Proof.
  apply (C5_membership_after_fetch OpenAI world_online).
  vm_compute. reflexivity.
Defined.

(** C6: after a successful fetch the returned list is in ascending order
    for [String.le], the order of strings by the codes of their
    characters, in which upper case comes before lower case. *)
Theorem C6_sorted_after_fetch p w raw :
  fetch p w = Some (Yields raw) →
  ∃ l, (get_models p w).1 = Returned l ∧ StronglySorted String.le l.
Proof.
  intros Hfetch. exists (merged p raw).
  split; [by rewrite get_models_result, Hfetch|].
  apply sorted_StronglySorted.
Qed.

Lemma C6_sorted_after_fetch_witness :
  ∃ l, (get_models Gemini world_online).1 = Returned l ∧
       StronglySorted String.le l.
Proof.
  apply (C6_sorted_after_fetch Gemini world_online
           ["models/gemini-2.0-flash"; "models/gemini-pro"; "models/Zeta"]).
  vm_compute. reflexivity.
Defined.

(** C7: [name.split('/')[-1]] returns, for every [name], the part of
    [name] after its last ['/']: a string without ['/'] that is [name]
    itself when [name] has no ['/'], and otherwise is what follows some
    prefix and a ['/'] in [name]. It turns ["models/gemini-2.0-flash"]
    into ["gemini-2.0-flash"]. *)
Theorem C7_last_segment name w :
  (∃ tail,
     last_segment name w = (Returned tail, w) ∧
     PyStr.contains slash tail = false ∧
     if PyStr.contains slash name
     then ∃ prefix, name = prefix +:+ String slash tail
     else name = tail) ∧
  last_segment "models/gemini-2.0-flash" w = (Returned "gemini-2.0-flash", w).
Proof.
  split; [|by rewrite last_segment_run].
  rewrite last_segment_run.
  destruct (PyStr.contains slash name) eqn:Hname.
  - destruct (cut_at_last_sep slash name Hname) as (prefix & tail & -> & Htail).
    exists tail. rewrite normalize_after_slash by done. eauto.
  - exists name. by rewrite normalize_no_slash.
Qed.

(** C8: [get_gemini_image_models] returns the same two identifiers in
    every world and leaves the world as it was: nothing is printed and no
    listing call is made. *)
Theorem C8_image_models_constant w :
  get_gemini_image_models w =
  (Returned ["gemini-2.0-flash-exp-image-generation"; "imagen-3.0-generate-002"], w).
Proof. reflexivity. Qed.

(** C9: two invocations of a lister in worlds with the same credential
    and the same behaviour of the listing call for it give the same
    outcome, whatever else differs between the worlds (the other
    variables, what was printed or called before); in particular a second
    invocation right after the first one gives what the first one gave. *)
Theorem C9_listers_deterministic p w1 w2 :
  environ w1 !! env_var p = environ w2 !! env_var p →
  (∀ k, environ w1 !! env_var p = Some k → remote w1 p k = remote w2 p k) →
  (get_models p w1).1 = (get_models p w2).1 ∧
  (get_models p (get_models p w1).2).1 = (get_models p w1).1.
Proof.
  intros Henv Hremote. split.
  - rewrite !get_models_result.
    assert (fetch p w1 = fetch p w2) as ->; [|done].
    unfold fetch. rewrite <- Henv.
    destruct (environ w1 !! env_var p) as [[|a k]|] eqn:Hkey; try done.
    by rewrite (Hremote (String a k)).
  - destruct (get_models_world p w1) as [evs ->].
    by rewrite !get_models_result, fetch_emit.
Qed.

Lemma C9_listers_deterministic_witness :
  (get_models Gemini world_online).1 =
    (get_models Gemini (emit [Printed "earlier output"] world_online)).1 ∧
  (get_models Gemini (get_models Gemini world_online).2).1 =
    (get_models Gemini world_online).1.
Proof.
  apply (C9_listers_deterministic Gemini world_online
           (emit [Printed "earlier output"] world_online)).
  - reflexivity.
  - intros k _. reflexivity.
Defined.

(** C10: a credential variable set to the empty string is handled as one
    that is not set. [get_api_keys] prints the missing-key warning for it,
    and prints the same lines as when the variable is removed; the lister
    returns the provider's default list and only prints, the same lines as
    when the variable is removed, so no listing call is made. *)
Theorem C10_empty_credential_is_absent p w :
  environ w !! env_var p = Some "" →
  let w_unset := World (delete (env_var p) (environ w)) (remote w) (trace w) in
  (∃ lines,
     trace (get_api_keys w).2 = trace w ++ (Printed <$> lines) ∧
     trace (get_api_keys w_unset).2 = trace w ++ (Printed <$> lines) ∧
     missing_key_warning p ∈ lines) ∧
  (∃ lines,
     get_models p w =
       (Returned (default_models p), emit (Printed <$> lines) w) ∧
     get_models p w_unset =
       (Returned (default_models p), emit (Printed <$> lines) w_unset)).
Proof.
  intros Hkey w_unset.
  assert (key_warnings w_unset = key_warnings w) as Hwarn.
  { unfold key_warnings, w_unset. simpl environ.
    destruct p; simpl env_var in *.
    - rewrite lookup_delete_eq, Hkey, lookup_delete_ne; done.
    - rewrite lookup_delete_eq, Hkey, lookup_delete_ne; done. }
  assert (fetch p w = None) as Hfetch.
  { apply fetch_None. by rewrite Hkey. }
  assert (fetch p w_unset = None) as Hfetch'.
  { apply fetch_None. unfold w_unset. simpl environ. by rewrite lookup_delete_eq. }
  split.
  - exists (key_warnings w). rewrite !get_api_keys_run, Hwarn.
    split; [done|]. split; [done|].
    apply key_warnings_missing. by rewrite Hkey.
  - exists (key_warnings w ++ [using_default_notice p]).
    rewrite !get_models_no_credential, Hwarn by done. done.
Qed.

Lemma C10_empty_credential_is_absent_witness :
  let w_unset := World (delete (env_var OpenAI) (environ world_empty_keys))
                       (remote world_empty_keys) (trace world_empty_keys) in
  (∃ lines,
     trace (get_api_keys world_empty_keys).2 =
       trace world_empty_keys ++ (Printed <$> lines) ∧
     trace (get_api_keys w_unset).2 =
       trace world_empty_keys ++ (Printed <$> lines) ∧
     missing_key_warning OpenAI ∈ lines) ∧
  (∃ lines,
     get_models OpenAI world_empty_keys =
       (Returned (default_models OpenAI),
        emit (Printed <$> lines) world_empty_keys) ∧
     get_models OpenAI w_unset =
       (Returned (default_models OpenAI), emit (Printed <$> lines) w_unset)).
Proof.
  apply (C10_empty_credential_is_absent OpenAI world_empty_keys).
  vm_compute. reflexivity.
Defined.

(** ** A run on concrete answers *)

(** The listers on [world_online]: the capital ["Zeta"] comes first, and
    ["gemini-2.0-flash"], fetched and a default, is listed once. *)
Example get_gemini_models_online :
  get_gemini_models world_online =
  (Returned
     ["Zeta"; "gemini-1.5-flash"; "gemini-1.5-flash-8b"; "gemini-1.5-pro";
      "gemini-2.0-flash"; "gemini-2.0-flash-exp-image-generation";
      "gemini-2.0-flash-lite"; "gemini-2.5-pro-exp-03-25"; "gemini-pro";
      "imagen-3.0-generate-002"],
   emit [ListingCall Gemini "g-key";
         Printed "Gemini models fetched: 3 models available"] world_online).
Proof. vm_compute. reflexivity. Qed.

Example get_openai_models_refused :
  get_openai_models world_refused =
  (Returned default_openai_models,
   emit [ListingCall OpenAI "o-key";
         Printed "Error fetching OpenAI models: connection refused";
         Printed "Using default OpenAI model list."] world_refused).
Proof. vm_compute. reflexivity. Qed.

(** ** Running [main] *)

Lemma emit_emit evs1 evs2 w : emit evs2 (emit evs1 w) = emit (evs1 ++ evs2) w.
Proof. unfold emit. cbn [environ remote trace]. by rewrite app_assoc. Qed.

Lemma emit_nil w : emit [] w = w.
Proof. destruct w. unfold emit. cbn [environ remote trace]. by rewrite app_nil_r. Qed.

Lemma py_bind_returned {A B} (m : Py A) (f : A → Py B) w a w' :
  m w = (Returned a, w') → (m ≫= f) w = f a w'.
Proof. intros Hm. unfold mbind, Py_bind, py_bind. by rewrite Hm. Qed.

Lemma py_bind_propagated {A B} (m : Py A) (f : A → Py B) w e w' :
  m w = (Propagated e, w') → (m ≫= f) w = (Propagated e, w').
Proof. intros Hm. unfold mbind, Py_bind, py_bind. by rewrite Hm. Qed.

Lemma print_run line w : print line w = (Returned (), emit [Printed line] w).
Proof. done. Qed.

Lemma print_if_run (b : bool) line w :
  (if b then print line else mret ()) w =
  (Returned (), emit (Printed <$> (if b then [line] else [])) w).
Proof. destruct b; [done|]. by rewrite emit_nil. Qed.

Lemma for_each_print_run {A} (f : A → string) (l : list A) w :
  for_each l (λ x, print (f x)) w = (Returned (), emit (Printed <$> (f <$> l)) w).
Proof.
  revert w. induction l as [|x l IH]; intros w.
  - by rewrite emit_nil.
  - cbn [for_each]. rewrite (py_bind_returned _ _ _ _ _ (print_run _ _)).
    by rewrite IH, emit_emit.
Qed.

(** One run of a lister: its outcome and what it adds to the trace. *)
Lemma get_models_run p w :
  get_models p w = ((get_models p w).1, emit (lister_events p w) w).
Proof.
  unfold lister_events.
  destruct (fetch p w) as [[raw|received e]|] eqn:Hfetch.
  - apply fetch_Some in Hfetch as (k & Hkey & Hk & Hr).
    rewrite (get_models_fetched p w k raw) by done.
    rewrite Hkey. destruct k as [|a k]; [done|]. by rewrite Hr.
  - apply fetch_Some in Hfetch as (k & Hkey & Hk & Hr).
    rewrite (get_models_raised p w k received e) by done.
    rewrite Hkey. destruct k as [|a k]; [done|]. rewrite Hr.
    by destruct (isinstance_Exception e), (exn_str e).
  - rewrite get_models_no_credential by done.
    apply fetch_None in Hfetch. rewrite fmap_app.
    by destruct (environ w !! env_var p) as [[|a k]|].
Qed.

(** A lister looks at the environment and the provider only: what was
    printed or called before makes no difference. *)
Lemma get_models_after evs p w :
  get_models p (emit evs w) =
  ((get_models p w).1, emit (evs ++ lister_events p w) w).
Proof.
  rewrite get_models_run, emit_emit. f_equal.
  by rewrite !get_models_result, fetch_emit.
Qed.

Lemma main_run w :
  main w =
  match (get_models Gemini w).1 with
  | Propagated e =>
      (Propagated e, emit (preamble_events w ++ lister_events Gemini w) w)
  | Returned g =>
      let evs := preamble_events w ++ lister_events Gemini w ++
                 listing_events Gemini g ++
                 Printed (section_header OpenAI) :: lister_events OpenAI w in
      match (get_models OpenAI w).1 with
      | Propagated e => (Propagated e, emit evs w)
      | Returned o => (Returned (), emit (evs ++ listing_events OpenAI o) w)
      end
  end.
Proof.
  unfold main.
  rewrite (py_bind_returned _ _ _ _ _ (print_run _ _)).
  rewrite (py_bind_returned _ _ _ _ _ (get_api_keys_run _)).
  rewrite (py_bind_returned _ _ _ _ _ (print_if_run _ _ _)).
  rewrite (py_bind_returned _ _ _ _ _ (print_if_run _ _ _)).
  rewrite (py_bind_returned _ _ _ _ _ (print_run _ _)).
  rewrite (py_bind_returned _ _ _ _ _ (print_run _ _)).
  rewrite !emit_emit.
  change get_gemini_models with (get_models Gemini).
  change get_openai_models with (get_models OpenAI).
  match goal with
  | |- _ (emit ?evs w) = _ => assert (evs = preamble_events w) as ->
  end.
  { unfold preamble_events, key_found_lines, key_warnings.
    cbn [environ emit]. rewrite fmap_cons, !fmap_app, <- !app_assoc.
    reflexivity. }
  pose proof (get_models_after (preamble_events w) Gemini w) as Hgemini.
  destruct ((get_models Gemini w).1) as [g|e].
  2: { by rewrite (py_bind_propagated _ _ _ _ _ Hgemini). }
  rewrite (py_bind_returned _ _ _ _ _ Hgemini).
  rewrite (py_bind_returned _ _ _ _ _ (for_each_print_run _ _ _)).
  rewrite (py_bind_returned _ _ _ _ _ (print_run _ _)).
  rewrite (py_bind_returned _ _ _ _ _ (print_run _ _)).
  rewrite !emit_emit.
  match goal with
  | |- _ (emit ?evs w) = _ =>
      pose proof (get_models_after evs OpenAI w) as Hopenai
  end.
  destruct ((get_models OpenAI w).1) as [o|e].
  - rewrite (py_bind_returned _ _ _ _ _ Hopenai).
    rewrite (py_bind_returned _ _ _ _ _ (for_each_print_run _ _ _)).
    rewrite print_run, !emit_emit.
    cbn zeta. unfold listing_events. rewrite !fmap_app, <- !app_assoc.
    reflexivity.
  - rewrite (py_bind_propagated _ _ _ _ _ Hopenai).
    cbn zeta. unfold listing_events. rewrite !fmap_app, <- !app_assoc.
    reflexivity.
Qed.

(** ** Further properties of [list_models.py] *)

Lemma trace_emit evs w : trace (emit evs w) = trace w ++ evs.
Proof. done. Qed.



Lemma printed_lines_app evs1 evs2 :
  printed_lines (evs1 ++ evs2) = printed_lines evs1 ++ printed_lines evs2.
Proof. apply omap_app. Qed.

Lemma printed_lines_printed lines : printed_lines (Printed <$> lines) = lines.
Proof.
  induction lines as [|line lines IH]; [done|].
  cbn. unfold printed_lines in IH. by rewrite IH.
Qed.

Lemma occurrences_app x l1 l2 :
  occurrences x (l1 ++ l2) = occurrences x l1 + occurrences x l2.
Proof. unfold occurrences. by rewrite filter_app, length_app. Qed.

Lemma occurrences_not_elem x l : x ∉ l → occurrences x l = 0.
Proof.
  intros Hx. unfold occurrences.
  induction l as [|y l IH]; [done|].
  apply not_elem_of_cons in Hx as [Hne Hx].
  rewrite filter_cons_False by (intros ->; done). by apply IH.
Qed.

Lemma occurrences_elem_NoDup x l : NoDup l → x ∈ l → occurrences x l = 1.
Proof.
  unfold occurrences. induction 1 as [|y l Hy Hnd IH]; intros Hx.
  - by apply elem_of_nil in Hx.
  - destruct (decide (y = x)) as [->|Hne].
    + rewrite filter_cons_True by done. cbn [length]. f_equal.
      by apply (occurrences_not_elem x l).
    + rewrite filter_cons_False by done. apply IH.
      apply elem_of_cons in Hx as [?|?]; [congruence|done].
Qed.

Lemma occurrences_Permutation x l1 l2 :
  l1 ≡ₚ l2 → occurrences x l1 = occurrences x l2.
Proof. intros Hperm. unfold occurrences. by rewrite Hperm. Qed.

(** The merged list of a fetch, up to the order. *)
Lemma merged_Permutation p raw :
  merged p raw ≡ₚ
  normalized p raw ++ filter (λ d, d ∉ normalized p raw) (default_models p).
Proof.
  unfold merged. rewrite sorted_Permutation.
  by rewrite include_defaults_filter by apply NoDup_default_models.
Qed.

Lemma elem_of_merged p raw x :
  x ∈ merged p raw ↔ x ∈ normalized p raw ∨ x ∈ default_models p.
Proof.
  unfold merged. by rewrite sorted_Permutation, elem_of_include_defaults.
Qed.

Lemma length_normalized p raw : length (normalized p raw) = length raw.
Proof. destruct p; [apply length_fmap|done]. Qed.

(** What a lister can return. *)
Lemma get_models_returned p w l :
  (get_models p w).1 = Returned l →
  l = default_models p ∨ ∃ raw, fetch p w = Some (Yields raw) ∧ l = merged p raw.
Proof.
  rewrite get_models_result.
  destruct (fetch p w) as [[raw|received e]|].
  - intros [= <-]. right. by exists raw.
  - destruct (isinstance_Exception e), (exn_str e); try done.
    intros [= <-]. by left.
  - intros [= <-]. by left.
Qed.

(** X1: [get_api_keys] returns the two variables as the environment has
    them (an empty value stays the empty string), only prints, and prints
    the warning of a provider exactly when that provider's variable is
    unset or empty. *)
Theorem X1_get_api_keys_values_and_warnings p w :
  ∃ lines,
    get_api_keys w =
      (Returned (environ w !! "GEMINI_API_KEY", environ w !! "OPENAI_API_KEY"),
       emit (Printed <$> lines) w) ∧
    length lines ≤ 2 ∧
    (missing_key_warning p ∈ lines ↔ truthy (environ w !! env_var p) = false).
Proof.
  exists (key_warnings w). split; [apply get_api_keys_run|].
  unfold key_warnings.
  destruct (truthy (environ w !! "GEMINI_API_KEY")) eqn:Hg,
           (truthy (environ w !! "OPENAI_API_KEY")) eqn:Ho;
    (split; [cbn; lia|]); destruct p; cbn [env_var]; rewrite ?Hg, ?Ho;
    cbn [app]; rewrite ?elem_of_cons, ?elem_of_nil; cbn [missing_key_warning];
    split; try done; intros; try (by left); try (by right; left);
    naive_solver.
Qed.


(** X3: whatever list a lister returns, every default identifier of its
    provider is in it, so the list is never shorter than the default
    list. *)
Theorem X3_defaults_always_listed p w l :
  (get_models p w).1 = Returned l →
  default_models p ⊆ l ∧ length (default_models p) ≤ length l.
Proof.
  intros Hl.
  assert (default_models p ⊆ l) as Hsub.
  { destruct (get_models_returned p w l Hl) as [->|(raw & _ & ->)]; [done|].
    intros x Hx. apply elem_of_merged. by right. }
  split; [done|].
  apply submseteq_length, NoDup_submseteq; [apply NoDup_default_models|done].
Qed.

Lemma X3_defaults_always_listed_witness :
  default_models Gemini ⊆ merged Gemini
    ["models/gemini-2.0-flash"; "models/gemini-pro"; "models/Zeta"] ∧
  length (default_models Gemini) ≤
  length (merged Gemini
    ["models/gemini-2.0-flash"; "models/gemini-pro"; "models/Zeta"]).
Proof.
  apply (X3_defaults_always_listed Gemini world_online).
  vm_compute. reflexivity.
Defined.

(** X4: after a successful fetch, an identifier that was fetched occurs in
    the returned list as often as among the normalized fetched
    identifiers; a default identifier that was not fetched occurs once;
    anything else does not occur. *)
Theorem X4_occurrences_after_fetch p w raw x :
  fetch p w = Some (Yields raw) →
  ∃ l, (get_models p w).1 = Returned l ∧
       occurrences x l =
       if bool_decide (x ∈ normalized p raw)
       then occurrences x (normalized p raw)
       else if bool_decide (x ∈ default_models p) then 1 else 0.
Proof.
  intros Hfetch. exists (merged p raw).
  split; [by rewrite get_models_result, Hfetch|].
  rewrite (occurrences_Permutation _ _ _ (merged_Permutation p raw)).
  rewrite occurrences_app.
  case_bool_decide as Hx.
  - rewrite (occurrences_not_elem x (filter _ _)); [lia|].
    rewrite list_elem_of_filter. by intros [? _].
  - rewrite (occurrences_not_elem x (normalized p raw)) by done.
    case_bool_decide as Hd.
    + apply occurrences_elem_NoDup.
      * apply NoDup_filter, NoDup_default_models.
      * by apply list_elem_of_filter.
    + apply occurrences_not_elem. rewrite list_elem_of_filter. by intros [_ ?].
Qed.

Lemma X4_occurrences_after_fetch_witness :
  ∃ l, (get_models Gemini world_repeating).1 = Returned l ∧
       occurrences "aqa" l =
       if bool_decide ("aqa" ∈ normalized Gemini ["models/aqa"; "tunedModels/aqa"])
       then occurrences "aqa" (normalized Gemini ["models/aqa"; "tunedModels/aqa"])
       else if bool_decide ("aqa" ∈ default_models Gemini) then 1 else 0.
Proof.
  apply (X4_occurrences_after_fetch Gemini world_repeating).
  vm_compute. reflexivity.
Defined.

(** X5: after a successful fetch, the returned list has one entry for
    each fetched identifier and one for each default identifier that was
    not fetched; its length lies between the number fetched and that
    number plus the number of defaults. *)
Theorem X5_length_after_fetch p w raw :
  fetch p w = Some (Yields raw) →
  ∃ l, (get_models p w).1 = Returned l ∧
       length l = length raw +
                  length (filter (λ d, d ∉ normalized p raw) (default_models p)) ∧
       length raw ≤ length l ≤ length raw + length (default_models p).
Proof.
  intros Hfetch. exists (merged p raw).
  split; [by rewrite get_models_result, Hfetch|].
  rewrite (Permutation_length (merged_Permutation p raw)).
  rewrite length_app, length_normalized.
  pose proof (length_filter (λ d, d ∉ normalized p raw) (default_models p)).
  split; [done|lia].
Qed.

Lemma X5_length_after_fetch_witness :
  ∃ l, (get_models OpenAI world_online).1 = Returned l ∧
       length l = length ["gpt-4o"; "gpt-4o-mini"; "whisper-1"] +
                  length (filter (λ d, d ∉ normalized OpenAI
                                           ["gpt-4o"; "gpt-4o-mini"; "whisper-1"])
                                 (default_models OpenAI)) ∧
       length ["gpt-4o"; "gpt-4o-mini"; "whisper-1"] ≤ length l ≤
       length ["gpt-4o"; "gpt-4o-mini"; "whisper-1"] +
       length (default_models OpenAI).
Proof.
  apply (X5_length_after_fetch OpenAI world_online).
  vm_compute. reflexivity.
Defined.

Lemma printed_lines_lister_events p w :
  printed_lines (lister_events p w) =
  key_warnings w ++
  match fetch p w with
  | None => [using_default_notice p]
  | Some (Yields raw) => [fetched_notice p (length raw)]
  | Some (Raises _ e) =>
      if isinstance_Exception e
      then match exn_str e with
           | Str message => error_notices p message
           | StrRaises _ => []
           end
      else []
  end.
Proof.
  unfold lister_events, fetch.
  rewrite printed_lines_app, printed_lines_printed. f_equal.
  destruct (environ w !! env_var p) as [[|a k]|]; [done| |done].
  change (printed_lines (ListingCall p (String a k) :: ?l))
    with (printed_lines l).
  destruct (remote w p (String a k)) as [raw|received e]; [done|].
  destruct (isinstance_Exception e); [|done].
  destruct (exn_str e) as [message|e']; [|done].
  apply printed_lines_printed.
Qed.

Lemma printed_lines_get_models p w :
  printed_lines (trace (get_models p w).2) =
  printed_lines (trace w) ++ printed_lines (lister_events p w).
Proof.
  rewrite get_models_run. cbn [snd]. by rewrite trace_emit, printed_lines_app.
Qed.

(** X6: after a successful fetch a lister has printed, after the
    warnings of [get_api_keys], one line that gives the number of
    identifiers fetched, which is the number before the defaults are
    included. *)
Theorem X6_fetched_notice_counts_the_fetch p w raw :
  fetch p w = Some (Yields raw) →
  printed_lines (trace (get_models p w).2) =
  printed_lines (trace w) ++ key_warnings w ++ [fetched_notice p (length raw)].
Proof.
  intros Hfetch.
  by rewrite printed_lines_get_models, printed_lines_lister_events, Hfetch.
Qed.

Lemma X6_fetched_notice_counts_the_fetch_witness :
  printed_lines (trace (get_models Gemini world_online).2) =
  printed_lines (trace world_online) ++ key_warnings world_online ++
  [fetched_notice Gemini
     (length ["models/gemini-2.0-flash"; "models/gemini-pro"; "models/Zeta"])].
Proof.
  apply (X6_fetched_notice_counts_the_fetch Gemini world_online).
  vm_compute. reflexivity.
Defined.



(** X8: when the listing call raises an exception that does not derive
    from [Exception], the lister propagates that very exception and
    prints nothing about it: after the listing call the trace ends. *)
Theorem X8_other_exceptions_pass_through p w received e :
  fetch p w = Some (Raises received e) →
  isinstance_Exception e = false →
  ∃ k, environ w !! env_var p = Some k ∧
       get_models p w =
       (Propagated e,
        emit ((Printed <$> key_warnings w) ++ [ListingCall p k]) w).
Proof.
  intros (k & Hkey & Hk & Hr)%fetch_Some He. exists k. split; [done|].
  by rewrite (get_models_raised p w k received e), He.
Qed.

Lemma X8_other_exceptions_pass_through_witness :
  ∃ k, environ world_interrupted !! env_var Gemini = Some k ∧
       get_models Gemini world_interrupted =
       (Propagated KeyboardInterrupt,
        emit ((Printed <$> key_warnings world_interrupted) ++
              [ListingCall Gemini k]) world_interrupted).
Proof.
  apply (X8_other_exceptions_pass_through Gemini world_interrupted []).
  - vm_compute. reflexivity.
  - reflexivity.
Defined.

Lemma normalize_slash_free name : PyStr.contains slash (normalize name) = false.
Proof.
  destruct (PyStr.contains slash name) eqn:Hname.
  - destruct (cut_at_last_sep slash name Hname) as (prefix & tail & -> & Htail).
    by rewrite normalize_after_slash.
  - by rewrite normalize_no_slash.
Qed.

Lemma default_gemini_models_slash_free :
  Forall (λ d, PyStr.contains slash d = false) default_gemini_models.
Proof. repeat constructor. Qed.

Lemma merged_Gemini_slash_free raw :
  Forall (λ x, PyStr.contains slash x = false) (merged Gemini raw).
Proof.
  apply Forall_forall. intros x [Hx|Hx]%elem_of_merged.
  - cbn [normalized] in Hx. apply list_elem_of_fmap in Hx as (name & -> & _).
    apply normalize_slash_free.
  - revert x Hx. apply Forall_forall, default_gemini_models_slash_free.
Qed.

(** X9: no identifier in a list returned by [get_gemini_models] has a
    ['/'] in it, whether the list is the default list or comes from a
    fetch. *)
Theorem X9_gemini_names_have_no_slash w l :
  (get_gemini_models w).1 = Returned l →
  Forall (λ x, PyStr.contains slash x = false) l.
Proof.
  intros Hl.
  destruct (get_models_returned Gemini w l Hl) as [->|(raw & _ & ->)].
  - apply default_gemini_models_slash_free.
  - apply merged_Gemini_slash_free.
Qed.

Lemma X9_gemini_names_have_no_slash_witness :
  Forall (λ x, PyStr.contains slash x = false)
         (merged Gemini ["models/aqa"; "tunedModels/aqa"]).
Proof.
  apply (X9_gemini_names_have_no_slash world_repeating).
  vm_compute. reflexivity.
Defined.

(** X10: the identifiers of [get_gemini_image_models] are in every list
    that [get_gemini_models] returns. *)
Theorem X10_image_models_are_listed w w' l images :
  (get_gemini_models w).1 = Returned l →
  (get_gemini_image_models w').1 = Returned images →
  images ⊆ l.
Proof.
  intros Hl [= <-].
  assert (default_gemini_models ⊆ l) as Hsub.
  { destruct (get_models_returned Gemini w l Hl) as [->|(raw & _ & ->)]; [done|].
    intros x Hx. apply elem_of_merged. by right. }
  intros x Hx. apply Hsub.
  apply elem_of_cons in Hx as [->|Hx]; [compute_done|].
  apply list_elem_of_singleton in Hx as ->. compute_done.
Qed.

Lemma X10_image_models_are_listed_witness :
  ["gemini-2.0-flash-exp-image-generation"; "imagen-3.0-generate-002"] ⊆
  merged Gemini ["models/gemini-2.0-flash"; "models/gemini-pro"; "models/Zeta"].
Proof.
  apply (X10_image_models_are_listed world_online world_no_keys).
  - vm_compute. reflexivity.
  - reflexivity.
Defined.

Lemma fmap_normalize_slash_free l :
  Forall (λ x, PyStr.contains slash x = false) l → normalize <$> l = l.
Proof.
  induction 1 as [|x l Hx _ IH]; [done|].
  cbn [fmap list_fmap]. rewrite normalize_no_slash by done.
  f_equal. exact IH.
Qed.

Lemma include_defaults_present defaults names :
  defaults ⊆ names → include_defaults defaults names = names.
Proof.
  induction defaults as [|d defaults IH]; intros Hsub; [done|].
  rewrite include_defaults_cons.
  rewrite bool_decide_eq_true_2 by (apply Hsub; by left).
  apply IH. intros x Hx. apply Hsub. by right.
Qed.

Lemma sorted_sorted names : sorted (sorted names) = sorted names.
Proof.
  symmetry. apply sorted_unique; [done|apply sorted_StronglySorted].
Qed.

Lemma normalized_merged p raw : normalized p (merged p raw) = merged p raw.
Proof.
  destruct p; [|done].
  apply fmap_normalize_slash_free, merged_Gemini_slash_free.
Qed.

Lemma merged_merged p raw : merged p (merged p raw) = merged p raw.
Proof.
  unfold merged at 1. rewrite normalized_merged.
  rewrite include_defaults_present.
  - unfold merged. apply sorted_sorted.
  - intros x Hx. apply elem_of_merged. by right.
Qed.

(** X11: the list a lister returns after a fetch is a fixed point: when
    the provider answers with exactly that list, the lister returns it
    again. *)
Theorem X11_returned_list_is_a_fixed_point p w w' raw l :
  fetch p w = Some (Yields raw) →
  (get_models p w).1 = Returned l →
  fetch p w' = Some (Yields l) →
  (get_models p w').1 = Returned l.
Proof.
  intros Hfetch Hl Hfetch'.
  rewrite get_models_result, Hfetch in Hl. injection Hl as <-.
  by rewrite get_models_result, Hfetch', merged_merged.
Qed.

Lemma X11_returned_list_is_a_fixed_point_witness :
  (get_models Gemini world_echo).1 =
  Returned (merged Gemini
              ["models/gemini-2.0-flash"; "models/gemini-pro"; "models/Zeta"]).
Proof.
  apply (X11_returned_list_is_a_fixed_point Gemini world_online world_echo
           ["models/gemini-2.0-flash"; "models/gemini-pro"; "models/Zeta"]).
  - vm_compute. reflexivity.
  - vm_compute. reflexivity.
  - vm_compute. reflexivity.
Defined.

Lemma merged_nil p : merged p [] = sorted (default_models p).
Proof. destruct p; vm_compute; reflexivity. Qed.

Lemma sorted_default_models_differs p : sorted (default_models p) ≠ default_models p.
Proof. destruct p; intros Heq; vm_compute in Heq; discriminate Heq. Qed.

(** X12: a fetch that succeeds with no identifier gives the default
    identifiers in sorted order, which is not the order of the default
    list that the lister returns without a key or after a failure. *)
Theorem X12_empty_fetch_gives_sorted_defaults p w :
  fetch p w = Some (Yields []) →
  ∃ l, (get_models p w).1 = Returned l ∧
       l = sorted (default_models p) ∧
       l ≡ₚ default_models p ∧
       l ≠ default_models p.
Proof.
  intros Hfetch. exists (sorted (default_models p)).
  split; [by rewrite get_models_result, Hfetch, merged_nil|].
  split; [done|]. split; [apply sorted_Permutation|].
  apply sorted_default_models_differs.
Qed.

Lemma X12_empty_fetch_gives_sorted_defaults_witness :
  ∃ l, (get_models OpenAI world_silent).1 = Returned l ∧
       l = sorted (default_models OpenAI) ∧
       l ≡ₚ default_models OpenAI ∧
       l ≠ default_models OpenAI.
Proof.
  apply (X12_empty_fetch_gives_sorted_defaults OpenAI world_silent).
  vm_compute. reflexivity.
Defined.

Lemma string_le_empty s : String.le s "" → s = "".
Proof. destruct s; [done|]. by intros ?%string_le_cons_nil. Qed.

Lemma head_sorted_empty l :
  StronglySorted String.le l → "" ∈ l → head l = Some "".
Proof.
  intros Hsorted Hin. destruct l as [|h t]; [by apply elem_of_nil in Hin|].
  cbn [head]. f_equal.
  apply elem_of_cons in Hin as [<-|Hin]; [done|].
  apply StronglySorted_inv in Hsorted as [_ Hall].
  apply string_le_empty. revert Hin. by apply Forall_forall.
Qed.

(** X13: a raw Gemini identifier that ends with ['/'] is normalized to
    the empty string, and the returned list then starts with the empty
    string. *)
Theorem X13_trailing_slash_gives_empty_name w raw prefix :
  fetch Gemini w = Some (Yields raw) →
  prefix +:+ "/" ∈ raw →
  ∃ l, (get_gemini_models w).1 = Returned l ∧ head l = Some "".
Proof.
  intros Hfetch Hraw. exists (merged Gemini raw).
  split; [by rewrite (get_models_result Gemini), Hfetch|].
  apply head_sorted_empty; [apply sorted_StronglySorted|].
  apply elem_of_merged. left. cbn [normalized].
  apply list_elem_of_fmap. exists (prefix +:+ "/"). split; [|done].
  symmetry. by apply (normalize_after_slash prefix "").
Qed.

Lemma X13_trailing_slash_gives_empty_name_witness :
  ∃ l, (get_gemini_models world_trailing_slash).1 = Returned l ∧
       head l = Some "".
Proof.
  apply (X13_trailing_slash_gives_empty_name world_trailing_slash
           ["models/gemini-pro"; "models/"] "models").
  - vm_compute. reflexivity.
  - apply list_elem_of_further, list_elem_of_here.
Defined.

(** ** Properties of [main] *)

Lemma main_returns w :
  (main w).1 = Returned () →
  ∃ g o,
    (get_models Gemini w).1 = Returned g ∧
    (get_models OpenAI w).1 = Returned o ∧
    (main w).2 =
      emit (preamble_events w ++ lister_events Gemini w ++
            listing_events Gemini g ++
            Printed (section_header OpenAI) :: lister_events OpenAI w ++
            listing_events OpenAI o) w.
Proof.
  rewrite main_run.
  destruct ((get_models Gemini w).1) as [g|e]; [|done].
  destruct ((get_models OpenAI w).1) as [o|e]; [|done].
  intros _. exists g, o. split; [done|]. split; [done|].
  cbn [snd]. by rewrite <- !app_assoc.
Qed.





(** X15: when the Gemini listing call raises an exception that does not
    derive from [Exception], [main] propagates it and stops there: the
    trace ends with that listing call, so the Gemini models are not
    printed and nothing of the OpenAI part happens. *)
Theorem X15_main_stops_at_first_uncaught w received e :
  fetch Gemini w = Some (Raises received e) →
  isinstance_Exception e = false →
  ∃ k, environ w !! "GEMINI_API_KEY" = Some k ∧
       main w =
       (Propagated e,
        emit (preamble_events w ++ (Printed <$> key_warnings w) ++
              [ListingCall Gemini k]) w).
Proof.
  intros Hfetch He. rewrite main_run, get_models_result, Hfetch, He.
  apply fetch_Some in Hfetch as (k & Hkey & Hk & Hr).
  exists k. split; [done|]. do 3 f_equal.
  unfold lister_events. rewrite Hkey.
  destruct k as [|a k]; [done|]. by rewrite Hr, He.
Qed.

Lemma X15_main_stops_at_first_uncaught_witness :
  ∃ k, environ world_interrupted !! "GEMINI_API_KEY" = Some k ∧
       main world_interrupted =
       (Propagated KeyboardInterrupt,
        emit (preamble_events world_interrupted ++
              (Printed <$> key_warnings world_interrupted) ++
              [ListingCall Gemini k]) world_interrupted).
Proof.
  apply (X15_main_stops_at_first_uncaught world_interrupted []).
  - vm_compute. reflexivity.
  - reflexivity.
Defined.



Lemma printed_lines_main w g o :
  (main w).2 =
    emit (preamble_events w ++ lister_events Gemini w ++
          listing_events Gemini g ++
          Printed (section_header OpenAI) :: lister_events OpenAI w ++
          listing_events OpenAI o) w →
  printed_lines (trace (main w).2) =
  printed_lines (trace w) ++
  banner_line :: key_warnings w ++ key_found_lines w ++
  [rule_line; section_header Gemini] ++
  printed_lines (lister_events Gemini w) ++
  (item_line Gemini <$> g) ++ [total_line Gemini (length g)] ++
  section_header OpenAI :: printed_lines (lister_events OpenAI w) ++
  (item_line OpenAI <$> o) ++ [total_line OpenAI (length o)].
Proof.
  intros ->. rewrite trace_emit, printed_lines_app. f_equal.
  unfold preamble_events, listing_events.
  rewrite !printed_lines_app, printed_lines_printed.
  change (printed_lines (Printed (section_header OpenAI) :: ?l))
    with (section_header OpenAI :: printed_lines l).
  rewrite !printed_lines_app, !printed_lines_printed.
  cbn [app]. by rewrite <- !app_assoc.
Qed.

(** X17: the output of a run of [main] that ends normally: the banner,
    the warnings and confirmations for the keys, the rule, and then for
    Gemini and for OpenAI in turn the header, what the lister printed,
    one line for each identifier the lister returned, in the order of
    the returned list, and the total, which is the length of that list. *)
Theorem X17_main_output w :
  (main w).1 = Returned () →
  ∃ g o,
    (get_gemini_models w).1 = Returned g ∧
    (get_openai_models w).1 = Returned o ∧
    printed_lines (trace (main w).2) =
    printed_lines (trace w) ++
    banner_line :: key_warnings w ++ key_found_lines w ++
    [rule_line; section_header Gemini] ++
    printed_lines (lister_events Gemini w) ++
    (item_line Gemini <$> g) ++ [total_line Gemini (length g)] ++
    section_header OpenAI :: printed_lines (lister_events OpenAI w) ++
    (item_line OpenAI <$> o) ++ [total_line OpenAI (length o)].
Proof.
  intros (g & o & Hg & Ho & Hmain)%main_returns.
  exists g, o. split; [done|]. split; [done|].
  by apply printed_lines_main.
Qed.

Lemma X17_main_output_witness :
  ∃ g o,
    (get_gemini_models world_gemini_only).1 = Returned g ∧
    (get_openai_models world_gemini_only).1 = Returned o ∧
    printed_lines (trace (main world_gemini_only).2) =
    printed_lines (trace world_gemini_only) ++
    banner_line :: key_warnings world_gemini_only ++
    key_found_lines world_gemini_only ++
    [rule_line; section_header Gemini] ++
    printed_lines (lister_events Gemini world_gemini_only) ++
    (item_line Gemini <$> g) ++ [total_line Gemini (length g)] ++
    section_header OpenAI ::
    printed_lines (lister_events OpenAI world_gemini_only) ++
    (item_line OpenAI <$> o) ++ [total_line OpenAI (length o)].
Proof.
  apply (X17_main_output world_gemini_only).
  vm_compute. reflexivity.
Defined.

Lemma occurrences_no_W p l :
  Forall (λ line, starts_with "W" line = false) l → occurrences (missing_key_warning p) l = 0.
Proof.
  intros Hall. apply occurrences_not_elem. intros Hin.
  apply (proj1 (Forall_forall _ _) Hall) in Hin. by destruct p.
Qed.

Lemma occurrences_key_warnings p w :
  occurrences (missing_key_warning p) (key_warnings w) =
  if truthy (environ w !! env_var p) then 0 else 1.
Proof.
  unfold key_warnings.
  destruct p; cbn [env_var];
    destruct (truthy (environ w !! "GEMINI_API_KEY")),
             (truthy (environ w !! "OPENAI_API_KEY")); vm_compute; reflexivity.
Qed.

Lemma no_W_key_found_lines w : Forall (λ line, starts_with "W" line = false) (key_found_lines w).
Proof.
  unfold key_found_lines.
  destruct (truthy (environ w !! "GEMINI_API_KEY")),
           (truthy (environ w !! "OPENAI_API_KEY")); repeat constructor.
Qed.

Lemma no_W_item_lines p l : Forall (λ line, starts_with "W" line = false) (item_line p <$> l).
Proof. apply Forall_fmap, Forall_forall. intros x _. by destruct p. Qed.

Lemma occurrences_lister_events p q w :
  occurrences (missing_key_warning p) (printed_lines (lister_events q w)) =
  occurrences (missing_key_warning p) (key_warnings w).
Proof.
  rewrite printed_lines_lister_events, occurrences_app.
  match goal with
  | |- _ + ?n = _ => assert (n = 0) as ->; [|lia]
  end.
  apply occurrences_no_W.
  destruct (fetch q w) as [[raw|received e]|].
  - repeat constructor. by destruct q.
  - destruct (isinstance_Exception e); [|constructor].
    destruct (exn_str e) as [message|e']; [|constructor].
    destruct q; repeat constructor.
  - repeat constructor. by destruct q.
Qed.

(** X18: in a run of [main] that ends normally, the warning for a key
    that is unset or empty is printed three times, once by each call of
    [get_api_keys]: the one of [main] and the ones of the two listers. *)
Theorem X18_main_warns_three_times p w :
  truthy (environ w !! env_var p) = false →
  (main w).1 = Returned () →
  ∃ evs, (main w).2 = emit evs w ∧
         occurrences (missing_key_warning p) (printed_lines evs) = 3.
Proof.
  intros Hkey (g & o & _ & _ & Hmain)%main_returns.
  eexists. split; [exact Hmain|].
  pose proof (printed_lines_main w g o Hmain) as Hlines.
  rewrite Hmain, trace_emit, printed_lines_app in Hlines.
  apply app_inv_head in Hlines. rewrite Hlines.
  change (banner_line :: ?l) with ([banner_line] ++ l).
  change (section_header OpenAI :: ?l) with ([section_header OpenAI] ++ l).
  rewrite !occurrences_app, !occurrences_lister_events, !occurrences_key_warnings.
  rewrite Hkey.
  rewrite (occurrences_no_W p [banner_line]) by repeat constructor.
  rewrite (occurrences_no_W p (key_found_lines w)) by apply no_W_key_found_lines.
  rewrite (occurrences_no_W p [rule_line; section_header Gemini])
    by repeat constructor.
  rewrite !(occurrences_no_W p (item_line _ <$> _)) by apply no_W_item_lines.
  rewrite (occurrences_no_W p [total_line Gemini (length g)])
    by repeat constructor.
  rewrite (occurrences_no_W p [section_header OpenAI]) by repeat constructor.
  rewrite (occurrences_no_W p [total_line OpenAI (length o)])
    by repeat constructor.
  reflexivity.
Qed.

Lemma X18_main_warns_three_times_witness :
  ∃ evs, (main world_gemini_only).2 = emit evs world_gemini_only ∧
         occurrences (missing_key_warning OpenAI) (printed_lines evs) = 3.
Proof.
  apply (X18_main_warns_three_times OpenAI world_gemini_only).
  - vm_compute. reflexivity.
  - vm_compute. reflexivity.
Defined.

(** [main] with no key set: three times each warning, no listing call,
    and the two default lists in the order of the source. *)
Example main_without_keys :
  (main world_no_keys).1 = Returned () ∧
  listing_calls (trace (main world_no_keys).2) = [] ∧
  printed_lines (trace (main world_no_keys).2) =
  [banner_line;
   missing_key_warning Gemini; missing_key_warning OpenAI;
   rule_line;
   section_header Gemini;
   missing_key_warning Gemini; missing_key_warning OpenAI;
   using_default_notice Gemini] ++
  (item_line Gemini <$> default_gemini_models) ++
  [total_line Gemini 8;
   section_header OpenAI;
   missing_key_warning Gemini; missing_key_warning OpenAI;
   using_default_notice OpenAI] ++
  (item_line OpenAI <$> default_openai_models) ++
  [total_line OpenAI 10].
Proof. split; [|split]; vm_compute; reflexivity. Qed.

(** X19: when the listing call raises an exception that derives from
    [Exception] but whose [str(e)] raises [e'], the handler of the lister
    fails at its first line: the lister propagates [e'], whatever its
    class, and prints neither the error line nor the line about the
    default list. *)
Theorem X19_failing_str_leaves_the_handler p w received e e' :
  fetch p w = Some (Raises received e) →
  isinstance_Exception e = true →
  exn_str e = StrRaises e' →
  ∃ k, environ w !! env_var p = Some k ∧
       get_models p w =
       (Propagated e',
        emit ((Printed <$> key_warnings w) ++ [ListingCall p k]) w).
Proof.
  intros (k & Hkey & Hk & Hr)%fetch_Some He Hstr. exists k. split; [done|].
  by rewrite (get_models_raised p w k received e), He, Hstr.
Qed.

Lemma X19_failing_str_leaves_the_handler_witness :
  ∃ k, environ world_unprintable !! env_var OpenAI = Some k ∧
       get_models OpenAI world_unprintable =
       (Propagated RuntimeError,
        emit ((Printed <$> key_warnings world_unprintable) ++
              [ListingCall OpenAI k]) world_unprintable).
Proof.
  apply (X19_failing_str_leaves_the_handler OpenAI world_unprintable []
           UnprintableError).
  - vm_compute. reflexivity.
  - reflexivity.
  - reflexivity.
Defined.
